(** * School planner: timetables and tasks (src/main.py)

    A shallow embedding of the FastAPI handlers of [src/main.py] over an
    explicit model of the two SQLite tables they read and write through
    SQLAlchemy's session.  Every handler is a function from the database
    to an outcome (a returned value or a raised exception) and the database
    that the request leaves behind. *)

From Stdlib Require Import ZArith List String Bool Lia Permutation Sorted.
Import ListNotations.
Open Scope string_scope.
Open Scope list_scope.
Open Scope Z_scope.

(** ** Dates

    A [datetime.date] is represented by its proleptic Gregorian ordinal
    ([date.toordinal()]): [date.min] is 1 and [date.max] (9999-12-31) is
    3652059.  Comparison of dates is comparison of ordinals (the ISO text
    SQLite stores for a [Date] column orders the same way), and adding a
    [timedelta(days=n)] adds [n] to the ordinal, raising [OverflowError]
    when the result leaves the range of [date]. *)

Definition date := Z.

Definition MINORDINAL : Z := 1.
Definition MAXORDINAL : Z := 3652059.

Definition date_add_days (d : date) (days : Z) : option date :=
  let o := d + days in
  if (0 <? o) && (o <=? MAXORDINAL) then Some o else None.

(** ** Models (lines 24-38)

    The handlers write a value to every column but [timetable_id], which
    [create_task] leaves NULL: [title], [description] and [due_date] come
    from a validated [TaskCreate], and [completed] is written [False] (the
    column default) on insert and [True] by [mark_task_complete].  So only
    [timetable_id] is optional in a row. *)

Module Timetable.
Record t := mk { id : Z; name : string }.
End Timetable.

Module Task.
Record t := mk
  { id : Z;
    title : string;
    description : string;
    due_date : date;
    completed : bool;
    timetable_id : option Z }.

Definition set_content (title' description' : string) (due_date' : date) (x : t) : t :=
  mk (id x) title' description' due_date' (completed x) (timetable_id x).

Definition set_completed (b : bool) (x : t) : t :=
  mk (id x) (title x) (description x) (due_date x) b (timetable_id x).

Definition set_timetable_id (k : option Z) (x : t) : t :=
  mk (id x) (title x) (description x) (due_date x) (completed x) k.
End Task.

(** ** Schemas (lines 43-53): the request bodies *)

Record TimetableCreate := mkTimetableCreate { tc_name : string }.

Record TaskCreate := mkTaskCreate
  { tk_title : string; tk_description : string; tk_due_date : date }.

(** ** The database

    The two tables, each a list of rows in rowid order. *)

Record DB := mkDB { timetables : list Timetable.t; tasks : list Task.t }.

Definition empty_db : DB := mkDB [] [].

(** Both [id] columns are [Column(Integer, primary_key=True)] of a SQLite
    table, declared without [sqlite_autoincrement]: the column is an alias
    of the rowid, and an INSERT that gives no id takes one more than the
    largest rowid in the table, or 1 when the table is empty.  (The
    saturated table, whose largest rowid is 2^63-1, is out of reach of
    this program, which never chooses an id itself.) *)

Definition next_rowid (ids : list Z) : Z :=
  match ids with
  | [] => 1
  | i :: rest => fold_right Z.max i rest + 1
  end.

(** The primary-key constraint: no two rows of a table share an id. *)

Definition pk_unique (db : DB) : Prop :=
  NoDup (map Timetable.id (timetables db)) /\ NoDup (map Task.id (tasks db)).

(** ** Handlers as state transformers with exceptions *)

Inductive exn :=
| HTTPException (status_code : Z) (detail : string)
| OverflowError
| InvalidRequestError.

Inductive outcome (A : Type) :=
| Returns (a : A)
| Raises (e : exn).

Arguments Returns {A} a.
Arguments Raises {A} e.

Definition Handler (A : Type) : Type := DB -> outcome A * DB.

Definition ret {A} (a : A) : Handler A := fun db => (Returns a, db).

Definition raise {A} (e : exn) : Handler A := fun db => (Raises e, db).

Definition bind {A B} (m : Handler A) (k : A -> Handler B) : Handler B :=
  fun db =>
    match m db with
    | (Returns a, db') => k a db'
    | (Raises e, db') => (Raises e, db')
    end.

Notation "x <- m ;; k" := (bind m (fun x => k))
  (at level 61, m at next level, right associativity).
Notation "m ;;; k" := (bind m (fun _ => k))
  (at level 61, right associativity).

(** The one domain error: a 404 with the handler's message. *)

Definition NotFound (detail : string) : exn := HTTPException 404 detail.

(** ** The session's queries and writes

    [db.query(M).filter(p).first()] and [.all()] read a table;
    [db.add(x); db.commit()] inserts a row and yields its new primary key;
    an attribute assignment followed by [db.commit()] is an UPDATE of the
    row with that primary key; [db.delete(x); db.commit()] is a DELETE of
    the row with that primary key; [db.refresh(x)] reads the row back. *)

Definition timetable_id_is (k : Z) (x : Timetable.t) : bool := Timetable.id x =? k.

Definition task_id_is (k : Z) (x : Task.t) : bool := Task.id x =? k.

(** [Task.timetable_id == k] in SQL: a NULL column matches no value. *)

Definition in_timetable (k : Z) (x : Task.t) : bool :=
  match Task.timetable_id x with
  | Some j => j =? k
  | None => false
  end.

Definition query_timetable_first (p : Timetable.t -> bool) : Handler (option Timetable.t) :=
  fun db => (Returns (find p (timetables db)), db).

Definition query_timetable_all (p : Timetable.t -> bool) : Handler (list Timetable.t) :=
  fun db => (Returns (filter p (timetables db)), db).

Definition query_task_first (p : Task.t -> bool) : Handler (option Task.t) :=
  fun db => (Returns (find p (tasks db)), db).

Definition query_task_all (p : Task.t -> bool) : Handler (list Task.t) :=
  fun db => (Returns (filter p (tasks db)), db).

Definition add_timetable (name : string) : Handler Z :=
  fun db =>
    let new_id := next_rowid (map Timetable.id (timetables db)) in
    (Returns new_id,
     mkDB (timetables db ++ [Timetable.mk new_id name]) (tasks db)).

(** [completed] is not given to the constructor: the column default,
    [False], is written. *)

Definition add_task (title description : string) (due_date : date)
    (timetable_id : option Z) : Handler Z :=
  fun db =>
    let new_id := next_rowid (map Task.id (tasks db)) in
    (Returns new_id,
     mkDB (timetables db)
          (tasks db ++ [Task.mk new_id title description due_date false timetable_id])).

Definition update_timetable_row (k : Z) (name : string) : Handler unit :=
  fun db =>
    (Returns tt,
     mkDB (map (fun x => if timetable_id_is k x then Timetable.mk (Timetable.id x) name else x)
               (timetables db))
          (tasks db)).

Definition update_task_row (k : Z) (f : Task.t -> Task.t) : Handler unit :=
  fun db =>
    (Returns tt,
     mkDB (timetables db)
          (map (fun x => if task_id_is k x then f x else x) (tasks db))).

Definition delete_task_row (k : Z) : Handler unit :=
  fun db =>
    (Returns tt,
     mkDB (timetables db) (filter (fun x => negb (task_id_is k x)) (tasks db))).

(** Deleting a [Timetable] goes through its relationship
    [tasks = relationship("Task", back_populates="timetable")] (line 28).
    The relationship is declared with the default cascade
    ("save-update, merge") and the default [passive_deletes=False], so
    when the flush deletes the parent the unit of work loads
    [timetable.tasks], the tasks whose [timetable_id] is the parent's id,
    and de-associates each of them by an UPDATE that sets its
    [timetable_id] to NULL; then it deletes the parent row. *)

Definition delete_timetable_row (k : Z) : Handler unit :=
  fun db =>
    (Returns tt,
     mkDB (filter (fun x => negb (timetable_id_is k x)) (timetables db))
          (map (fun x => if in_timetable k x then Task.set_timetable_id None x else x)
               (tasks db))).

Definition refresh_timetable (k : Z) : Handler Timetable.t :=
  fun db =>
    match find (timetable_id_is k) (timetables db) with
    | Some x => (Returns x, db)
    | None => (Raises InvalidRequestError, db)
    end.

Definition refresh_task (k : Z) : Handler Task.t :=
  fun db =>
    match find (task_id_is k) (tasks db) with
    | Some x => (Returns x, db)
    | None => (Raises InvalidRequestError, db)
    end.

(** ** Timetable endpoints (lines 67-104) *)

Definition create_timetable (timetable : TimetableCreate) : Handler Timetable.t :=
  new_id <- add_timetable (tc_name timetable) ;;
  refresh_timetable new_id.

Definition view_timetables : Handler (list Timetable.t) :=
  query_timetable_all (fun _ => true).

Definition get_timetable (timetable_id : Z) : Handler Timetable.t :=
  timetable <- query_timetable_first (timetable_id_is timetable_id) ;;
  match timetable with
  | None => raise (NotFound "Timetable not found")
  | Some timetable => ret timetable
  end.

Definition update_timetable (timetable_id : Z) (timetable : TimetableCreate)
    : Handler Timetable.t :=
  existing_timetable <- query_timetable_first (timetable_id_is timetable_id) ;;
  match existing_timetable with
  | None => raise (NotFound "Timetable not found")
  | Some existing_timetable =>
      update_timetable_row (Timetable.id existing_timetable) (tc_name timetable) ;;;
      refresh_timetable (Timetable.id existing_timetable)
  end.

Definition delete_timetable (timetable_id : Z) : Handler string :=
  timetable <- query_timetable_first (timetable_id_is timetable_id) ;;
  match timetable with
  | None => raise (NotFound "Timetable not found")
  | Some timetable =>
      delete_timetable_row (Timetable.id timetable) ;;;
      ret "Timetable deleted"
  end.

(** ** Task endpoints (lines 108-167) *)

Definition create_task (task : TaskCreate) : Handler Task.t :=
  new_id <- add_task (tk_title task) (tk_description task) (tk_due_date task) None ;;
  refresh_task new_id.

Definition view_tasks : Handler (list Task.t) :=
  query_task_all (fun _ => true).

Definition get_task (task_id : Z) : Handler Task.t :=
  task <- query_task_first (task_id_is task_id) ;;
  match task with
  | None => raise (NotFound "Task not found")
  | Some task => ret task
  end.

Definition update_task (task_id : Z) (task : TaskCreate) : Handler Task.t :=
  existing_task <- query_task_first (task_id_is task_id) ;;
  match existing_task with
  | None => raise (NotFound "Task not found")
  | Some existing_task =>
      update_task_row (Task.id existing_task)
        (Task.set_content (tk_title task) (tk_description task) (tk_due_date task)) ;;;
      refresh_task (Task.id existing_task)
  end.

Definition delete_task (task_id : Z) : Handler string :=
  task <- query_task_first (task_id_is task_id) ;;
  match task with
  | None => raise (NotFound "Task not found")
  | Some task =>
      delete_task_row (Task.id task) ;;;
      ret "Task deleted"
  end.

Definition mark_task_complete (task_id : Z) : Handler Task.t :=
  task <- query_task_first (task_id_is task_id) ;;
  match task with
  | None => raise (NotFound "Task not found")
  | Some task =>
      update_task_row (Task.id task) (Task.set_completed true) ;;;
      refresh_task (Task.id task)
  end.

Definition view_completed_tasks : Handler (list Task.t) :=
  query_task_all (fun x => Bool.eqb (Task.completed x) true).

Definition view_pending_tasks : Handler (list Task.t) :=
  query_task_all (fun x => Bool.eqb (Task.completed x) false).

(** ** Task and timetable associations (lines 171-191) *)

Definition view_tasks_in_timetable (timetable_id : Z) : Handler (list Task.t) :=
  query_task_all (in_timetable timetable_id).

Definition add_task_to_timetable (timetable_id : Z) (task : TaskCreate) : Handler Task.t :=
  new_id <- add_task (tk_title task) (tk_description task) (tk_due_date task)
              (Some timetable_id) ;;
  refresh_task new_id.

Definition remove_task_from_timetable (timetable_id task_id : Z) : Handler string :=
  task <- query_task_first
            (fun x => task_id_is task_id x && in_timetable timetable_id x) ;;
  match task with
  | None => raise (NotFound "Task not found in the timetable")
  | Some task =>
      delete_task_row (Task.id task) ;;;
      ret "Task removed from timetable"
  end.

(** ** Additional features (lines 195-220)

    The reminder's acknowledgement is the text
    "Reminder set for task {task.title} on {reminder_date}"; it is kept as
    the pair of values the text is formatted from.  [today] is the value
    [date.today()] has when the request is handled. *)

Record ReminderDetail := mkReminderDetail
  { reminder_task_title : string; reminder_on : date }.

Definition set_task_reminder (task_id : Z) (reminder_date : date) : Handler ReminderDetail :=
  task <- query_task_first (task_id_is task_id) ;;
  match task with
  | None => raise (NotFound "Task not found")
  | Some task => ret (mkReminderDetail (Task.title task) reminder_date)
  end.

Definition view_overdue_tasks (today : date) : Handler (list Task.t) :=
  query_task_all
    (fun x => (Task.due_date x <? today) && Bool.eqb (Task.completed x) false).

Definition get_weekly_task_summary (today : date) : Handler (list Task.t) :=
  match date_add_days today 7 with
  | None => raise OverflowError
  | Some week_from_today =>
      query_task_all
        (fun x => (today <=? Task.due_date x) && (Task.due_date x <=? week_from_today))
  end.

Definition get_daily_task_summary (today : date) : Handler (list Task.t) :=
  query_task_all (fun x => Task.due_date x =? today).

(** ** Requests

    One constructor per endpoint, with the inputs the handler receives;
    the date-dependent listings carry the day on which they are served. *)

Inductive request :=
| CreateTimetable (timetable : TimetableCreate)
| ViewTimetables
| GetTimetable (timetable_id : Z)
| UpdateTimetable (timetable_id : Z) (timetable : TimetableCreate)
| DeleteTimetable (timetable_id : Z)
| CreateTask (task : TaskCreate)
| ViewTasks
| GetTask (task_id : Z)
| UpdateTask (task_id : Z) (task : TaskCreate)
| DeleteTask (task_id : Z)
| MarkTaskComplete (task_id : Z)
| ViewCompletedTasks
| ViewPendingTasks
| ViewTasksInTimetable (timetable_id : Z)
| AddTaskToTimetable (timetable_id : Z) (task : TaskCreate)
| RemoveTaskFromTimetable (timetable_id task_id : Z)
| SetTaskReminder (task_id : Z) (reminder_date : date)
| ViewOverdueTasks (today : date)
| GetWeeklyTaskSummary (today : date)
| GetDailyTaskSummary (today : date).

(** The database a request leaves behind. *)

Definition serve (r : request) (db : DB) : DB :=
  match r with
  | CreateTimetable b => snd (create_timetable b db)
  | ViewTimetables => snd (view_timetables db)
  | GetTimetable k => snd (get_timetable k db)
  | UpdateTimetable k b => snd (update_timetable k b db)
  | DeleteTimetable k => snd (delete_timetable k db)
  | CreateTask b => snd (create_task b db)
  | ViewTasks => snd (view_tasks db)
  | GetTask k => snd (get_task k db)
  | UpdateTask k b => snd (update_task k b db)
  | DeleteTask k => snd (delete_task k db)
  | MarkTaskComplete k => snd (mark_task_complete k db)
  | ViewCompletedTasks => snd (view_completed_tasks db)
  | ViewPendingTasks => snd (view_pending_tasks db)
  | ViewTasksInTimetable k => snd (view_tasks_in_timetable k db)
  | AddTaskToTimetable k b => snd (add_task_to_timetable k b db)
  | RemoveTaskFromTimetable k j => snd (remove_task_from_timetable k j db)
  | SetTaskReminder k d => snd (set_task_reminder k d db)
  | ViewOverdueTasks d => snd (view_overdue_tasks d db)
  | GetWeeklyTaskSummary d => snd (get_weekly_task_summary d db)
  | GetDailyTaskSummary d => snd (get_daily_task_summary d db)
  end.

(** The ids a request hands out: the id of the entity a creation returns. *)

Definition returned_id {A} (id : A -> Z) (o : outcome A * DB) : list Z :=
  match fst o with
  | Returns a => [id a]
  | Raises _ => []
  end.

Definition assigned_task_ids (r : request) (db : DB) : list Z :=
  match r with
  | CreateTask b => returned_id Task.id (create_task b db)
  | AddTaskToTimetable k b => returned_id Task.id (add_task_to_timetable k b db)
  | _ => []
  end.

Definition assigned_timetable_ids (r : request) (db : DB) : list Z :=
  match r with
  | CreateTimetable b => returned_id Timetable.id (create_timetable b db)
  | _ => []
  end.

(** A history of requests, served in order from [db]: the final database
    and every id assigned on the way, per entity type. *)

Record served := mkServed
  { final_db : DB; task_ids_assigned : list Z; timetable_ids_assigned : list Z }.

Fixpoint serve_all (rs : list request) (db : DB) : served :=
  match rs with
  | [] => mkServed db [] []
  | r :: rs' =>
      let s := serve_all rs' (serve r db) in
      mkServed (final_db s)
               (assigned_task_ids r db ++ task_ids_assigned s)
               (assigned_timetable_ids r db ++ timetable_ids_assigned s)
  end.

(** How a table's column of ids may change under one request: not at all,
    by one new id at the end, or by the removal of one id. *)

Inductive ids_step (old : list Z) : list Z -> Prop :=
| ids_same : ids_step old old
| ids_inserted (i : Z) : ~ In i old -> ids_step old (old ++ [i])
| ids_deleted (i : Z) : ids_step old (filter (fun j => negb (j =? i)) old).

(** ** Sample databases

    [planner]: four requests against the empty database, a timetable, a
    task under it, a free-standing task, and the completion of the
    latter.  [week_planner]: tasks due today (day 739200), seven and
    eight days later, and the day before.  [planner_of_seven]: a task
    under timetable 7 next to an empty timetable 5.
    [create_then_delete]: a task is created and deleted again. *)

Definition essay : TaskCreate := mkTaskCreate "Essay" "History, 2000 words" 739200.

Definition lab_report : TaskCreate := mkTaskCreate "Lab report" "Chemistry" 739207.

Definition planner : DB :=
  final_db (serve_all [CreateTimetable (mkTimetableCreate "Fall2024");
                       AddTaskToTimetable 1 essay;
                       CreateTask lab_report;
                       MarkTaskComplete 2] empty_db).

Definition due_in (days : Z) : TaskCreate := mkTaskCreate "Homework" "" (739200 + days).

Definition week_planner : DB :=
  final_db (serve_all [CreateTask (due_in 0); CreateTask (due_in 7);
                       CreateTask (due_in 8); CreateTask (due_in (-1))] empty_db).

Definition planner_of_seven : DB :=
  mkDB [Timetable.mk 5 "Spring"; Timetable.mk 7 "Fall"]
       [Task.mk 1 "Essay" "" 739200 false (Some 7)].


(** ** Outcomes of requests

    The exception a request ends with, if any, and the requests whose
    handlers only query. *)



Definition is_query (r : request) : bool :=
  match r with
  | ViewTimetables | GetTimetable _ | ViewTasks | GetTask _
  | ViewCompletedTasks | ViewPendingTasks | ViewTasksInTimetable _
  | SetTaskReminder _ _ | ViewOverdueTasks _ | GetWeeklyTaskSummary _
  | GetDailyTaskSummary _ => true
  | _ => false
  end.

(** A column of ids in rowid order: strictly increasing, from 1 up. *)

Definition ids_in_order (ids : list Z) : Prop :=
  StronglySorted Z.lt ids /\ Forall (fun i => 1 <= i) ids.

(** ** Routes (the decorators of lines 67-216)

    The routes that main.py registers, in the order of its decorators,
    each with its method, its path pattern and its endpoint.  A request
    path is the list of its segments.  A literal segment of a pattern
    matches itself; a [{parameter}] matches any segment that is not
    empty.  The router takes the first route whose pattern and method
    both match; failing that, the first route whose pattern matches.
    (The documentation routes that the framework adds itself, none of
    them under /task or /timetable, are left out, and so is what a
    request gets when no pattern matches.) *)

Module Endpoint.
Inductive t :=
| create_timetable | view_timetables | get_timetable | update_timetable
| delete_timetable | create_task | view_tasks | get_task | update_task
| delete_task | mark_task_complete | view_completed_tasks | view_pending_tasks
| view_tasks_in_timetable | add_task_to_timetable | remove_task_from_timetable
| set_task_reminder | view_overdue_tasks | get_weekly_task_summary
| get_daily_task_summary.
End Endpoint.

Inductive segment :=
| Lit (s : string)
| Param (name : string).

Record route := mkRoute
  { route_method : string; route_path : list segment; route_endpoint : Endpoint.t }.

Definition routes : list route :=
  [ mkRoute "POST" [Lit "timetable"; Lit "create"] Endpoint.create_timetable;
    mkRoute "GET" [Lit "timetable"; Lit "view"] Endpoint.view_timetables;
    mkRoute "GET" [Lit "timetable"; Param "timetable_id"] Endpoint.get_timetable;
    mkRoute "PUT" [Lit "timetable"; Param "timetable_id"] Endpoint.update_timetable;
    mkRoute "DELETE" [Lit "timetable"; Param "timetable_id"] Endpoint.delete_timetable;
    mkRoute "POST" [Lit "task"; Lit "create"] Endpoint.create_task;
    mkRoute "GET" [Lit "task"; Lit "view"] Endpoint.view_tasks;
    mkRoute "GET" [Lit "task"; Param "task_id"] Endpoint.get_task;
    mkRoute "PUT" [Lit "task"; Param "task_id"] Endpoint.update_task;
    mkRoute "DELETE" [Lit "task"; Param "task_id"] Endpoint.delete_task;
    mkRoute "PATCH" [Lit "task"; Param "task_id"; Lit "complete"]
            Endpoint.mark_task_complete;
    mkRoute "GET" [Lit "task"; Lit "completed"] Endpoint.view_completed_tasks;
    mkRoute "GET" [Lit "task"; Lit "pending"] Endpoint.view_pending_tasks;
    mkRoute "GET" [Lit "timetable"; Param "timetable_id"; Lit "tasks"]
            Endpoint.view_tasks_in_timetable;
    mkRoute "POST" [Lit "timetable"; Param "timetable_id"; Lit "task"]
            Endpoint.add_task_to_timetable;
    mkRoute "DELETE" [Lit "timetable"; Param "timetable_id"; Lit "task"; Param "task_id"]
            Endpoint.remove_task_from_timetable;
    mkRoute "POST" [Lit "task"; Param "task_id"; Lit "reminder"]
            Endpoint.set_task_reminder;
    mkRoute "GET" [Lit "task"; Lit "overdue"] Endpoint.view_overdue_tasks;
    mkRoute "GET" [Lit "task"; Lit "weekly-summary"] Endpoint.get_weekly_task_summary;
    mkRoute "GET" [Lit "task"; Lit "daily-summary"] Endpoint.get_daily_task_summary ].

Definition segment_matches (p : segment) (s : string) : bool :=
  match p with
  | Lit l => String.eqb l s
  | Param _ => negb (String.eqb s "")
  end.

Fixpoint path_matches (ps : list segment) (path : list string) : bool :=
  match ps, path with
  | [], [] => true
  | p :: ps', s :: path' => segment_matches p s && path_matches ps' path'
  | _, _ => false
  end.

Inductive Match := NONE | PARTIAL | FULL.

Definition matches (r : route) (method : string) (path : list string) : Match :=
  if path_matches (route_path r) path
  then if String.eqb method (route_method r) then FULL else PARTIAL
  else NONE.

Fixpoint route_for (rs : list route) (partial : option route)
    (method : string) (path : list string) : option (Match * route) :=
  match rs with
  | [] => option_map (fun r => (PARTIAL, r)) partial
  | r :: rs' =>
      match matches r method path with
      | FULL => Some (FULL, r)
      | PARTIAL =>
          route_for rs' (match partial with None => Some r | Some _ => partial end)
                    method path
      | NONE => route_for rs' partial method path
      end
  end.

Definition dispatch (method : string) (path : list string) : option (Match * Endpoint.t) :=
  option_map (fun mr => (fst mr, route_endpoint (snd mr)))
             (route_for routes None method path).

(** * Properties *)

(** ** Rows looked up by primary key *)

Section Rows.

Context {A : Type} (key : A -> Z).

Lemma find_key_some (k : Z) (l : list A) (a : A) :
  find (fun x => key x =? k) l = Some a -> In a l /\ key a = k.
Proof.
  intros H. apply find_some in H. destruct H as [Hin Hk].
  split; [exact Hin | now apply Z.eqb_eq].
Qed.

Lemma find_key_none (k : Z) (l : list A) :
  find (fun x => key x =? k) l = None <-> ~ In k (map key l).
Proof.
  induction l as [|a l IH]; simpl.
  - tauto.
  - destruct (Z.eqb_spec (key a) k) as [E|E].
    + split; [discriminate | intros H; exfalso; apply H; now left].
    + rewrite IH. tauto.
Qed.

Lemma find_key_in (k : Z) (l : list A) :
  In k (map key l) -> exists a, find (fun x => key x =? k) l = Some a.
Proof.
  intros H. destruct (find (fun x => key x =? k) l) as [a|] eqn:E.
  - now exists a.
  - apply find_key_none in E. contradiction.
Qed.

Lemma find_key_unique (l : list A) (a : A) :
  NoDup (map key l) -> In a l -> find (fun x => key x =? key a) l = Some a.
Proof.
  induction l as [|b l IH]; simpl; intros Hnd Hin; [contradiction|].
  inversion Hnd as [|? ? Hnotin Hnd']; subst.
  destruct Hin as [->|Hin].
  - now rewrite Z.eqb_refl.
  - destruct (Z.eqb_spec (key b) (key a)) as [E|E].
    + exfalso. apply Hnotin. rewrite E. now apply in_map.
    + now apply IH.
Qed.

(** An UPDATE that keeps the key column: the row found afterwards is the
    updated image of the row found before. *)

Lemma find_key_map (g : A -> A) (k : Z) (l : list A) :
  (forall x, key (g x) = key x) ->
  find (fun x => key x =? k) (map g l) = option_map g (find (fun x => key x =? k) l).
Proof.
  intros Hg. induction l as [|a l IH]; simpl; [reflexivity|].
  rewrite Hg. destruct (key a =? k); [reflexivity | exact IH].
Qed.

Lemma find_key_map_other (f : A -> A) (j k : Z) (l : list A) :
  j <> k ->
  (forall x, key (f x) = key x) ->
  find (fun x => key x =? j) (map (fun x => if key x =? k then f x else x) l)
  = find (fun x => key x =? j) l.
Proof.
  intros Hjk Hf. induction l as [|a l IH]; simpl; [reflexivity|].
  destruct (Z.eqb_spec (key a) k) as [E|E].
  - rewrite Hf. destruct (Z.eqb_spec (key a) j) as [E'|E']; [congruence | exact IH].
  - destruct (key a =? j); [reflexivity | exact IH].
Qed.

Lemma map_key_map (g : A -> A) (l : list A) :
  (forall x, key (g x) = key x) -> map key (map g l) = map key l.
Proof.
  intros Hg. rewrite map_map. apply map_ext. exact Hg.
Qed.

Lemma map_key_filter (k : Z) (l : list A) :
  map key (filter (fun x => negb (key x =? k)) l)
  = filter (fun j => negb (j =? k)) (map key l).
Proof.
  induction l as [|a l IH]; simpl; [reflexivity|].
  destruct (key a =? k); simpl; [exact IH | now rewrite IH].
Qed.

(** A DELETE by key leaves no row with that key and every other row. *)


Lemma find_key_deleted_other (j k : Z) (l : list A) :
  j <> k ->
  find (fun x => key x =? j) (filter (fun x => negb (key x =? k)) l)
  = find (fun x => key x =? j) l.
Proof.
  intros Hjk. induction l as [|a l IH]; simpl; [reflexivity|].
  destruct (Z.eqb_spec (key a) k) as [E|E]; simpl.
  - destruct (Z.eqb_spec (key a) j) as [E'|E']; [congruence | exact IH].
  - destruct (key a =? j); [reflexivity | exact IH].
Qed.

(** An INSERT under a key that no row has. *)

Lemma find_key_inserted (k : Z) (l : list A) (a : A) :
  ~ In k (map key l) -> key a = k ->
  find (fun x => key x =? k) (l ++ [a]) = Some a.
Proof.
  intros Hnotin Hk. induction l as [|b l IH]; simpl.
  - now rewrite Hk, Z.eqb_refl.
  - simpl in Hnotin. destruct (Z.eqb_spec (key b) k) as [E|E].
    + exfalso. apply Hnotin. now left.
    + apply IH. tauto.
Qed.

(** With unique keys, an update that fixes the row with key [k] fixes the
    table. *)

Lemma map_key_fixed (f : A -> A) (k : Z) (l : list A) (a : A) :
  NoDup (map key l) -> In a l -> key a = k -> f a = a ->
  map (fun x => if key x =? k then f x else x) l = l.
Proof.
  intros Hnd Hin Hk Hf.
  rewrite <- (map_id l) at 2. apply map_ext_in. intros b Hb.
  destruct (Z.eqb_spec (key b) k) as [E|E]; [|reflexivity].
  assert (Hfind : find (fun x => key x =? key b) l = Some b)
    by now apply find_key_unique.
  assert (Hfind' : find (fun x => key x =? key a) l = Some a)
    by now apply find_key_unique.
  rewrite E in Hfind. rewrite Hk in Hfind'.
  assert (b = a) by congruence. subst b. exact Hf.
Qed.

End Rows.

(** ** Rowid allocation *)

Lemma fold_max_ge (i : Z) (rest : list Z) :
  i <= fold_right Z.max i rest /\ forall j, In j rest -> j <= fold_right Z.max i rest.
Proof.
  induction rest as [|a rest [IHi IHr]]; simpl.
  - split; [lia | contradiction].
  - split; [lia|]. intros j [->|Hj]; [lia|]. specialize (IHr j Hj). lia.
Qed.

Lemma next_rowid_above (ids : list Z) (i : Z) :
  In i ids -> i < next_rowid ids.
Proof.
  destruct ids as [|a rest]; simpl; [contradiction|].
  destruct (fold_max_ge a rest) as [Ha Hrest].
  intros [->|Hi]; [lia|]. specialize (Hrest i Hi). lia.
Qed.

Lemma next_rowid_fresh (ids : list Z) : ~ In (next_rowid ids) ids.
Proof.
  intros H. apply next_rowid_above in H. lia.
Qed.

(** ** What the lookups return *)

Lemma get_task_found (k : Z) (db : DB) (t : Task.t) :
  find (task_id_is k) (tasks db) = Some t -> get_task k db = (Returns t, db).
Proof.
  intros H. unfold get_task, bind, query_task_first. now rewrite H.
Qed.


Lemma get_task_returns (k : Z) (db db' : DB) (t : Task.t) :
  get_task k db = (Returns t, db') -> find (task_id_is k) (tasks db) = Some t.
Proof.
  unfold get_task, bind, query_task_first.
  destruct (find (task_id_is k) (tasks db)); unfold ret, raise; congruence.
Qed.

Lemma get_timetable_found (k : Z) (db : DB) (x : Timetable.t) :
  find (timetable_id_is k) (timetables db) = Some x ->
  get_timetable k db = (Returns x, db).
Proof.
  intros H. unfold get_timetable, bind, query_timetable_first. now rewrite H.
Qed.


(** ** The sample planner, row by row *)

Example planner_rows :
  planner = mkDB [Timetable.mk 1 "Fall2024"]
                 [Task.mk 1 "Essay" "History, 2000 words" 739200 false (Some 1);
                  Task.mk 2 "Lab report" "Chemistry" 739207 true None].
Proof. reflexivity. Qed.

(** ** Missing records *)



(** ** Reminders *)



(** ** Listings by completion and by date *)

Lemma filter_all {A : Type} (l : list A) : filter (fun _ => true) l = l.
Proof.
  induction l as [|a l IH]; simpl; [reflexivity | now rewrite IH].
Qed.

Lemma completed_pending_perm (l : list Task.t) :
  Permutation l (filter (fun x => Bool.eqb (Task.completed x) true) l
                 ++ filter (fun x => Bool.eqb (Task.completed x) false) l).
Proof.
  induction l as [|a l IH]; simpl; [constructor|].
  destruct (Task.completed a); simpl.
  - apply perm_skip. exact IH.
  - apply Permutation_cons_app. exact IH.
Qed.

(** C2: the completed and the pending listings have no task in common,
    a task is listed by List Tasks exactly when one of the two lists it,
    and together they are a rearrangement of the full listing; every
    stored task is completed or not. *)
Theorem completed_pending_partition (db : DB) :
  exists done pending all,
    view_completed_tasks db = (Returns done, db) /\
    view_pending_tasks db = (Returns pending, db) /\
    view_tasks db = (Returns all, db) /\
    (forall t, ~ (In t done /\ In t pending)) /\
    (forall t, In t all <-> In t done \/ In t pending) /\
    Permutation all (done ++ pending) /\
    (forall t, In t all -> Task.completed t = true \/ Task.completed t = false).
Proof.
  unfold view_completed_tasks, view_pending_tasks, view_tasks, query_task_all.
  do 3 eexists. do 3 (split; [reflexivity|]).
  rewrite filter_all. repeat split.
  - intros t [Hd Hp]. apply filter_In in Hd, Hp.
    destruct Hd as [_ Hd], Hp as [_ Hp]. destruct (Task.completed t); discriminate.
  - intros Hin. destruct (Task.completed t) eqn:E.
    + left. apply filter_In. now rewrite E.
    + right. apply filter_In. now rewrite E.
  - intros [H|H]; apply filter_In in H; tauto.
  - apply completed_pending_perm.
  - intros t _. destruct (Task.completed t); tauto.
Qed.

(** C3: the overdue listing holds exactly the stored tasks that are due
    strictly before [today], the date of the request, and are not
    completed; each of them is in the pending listing. *)
Theorem overdue_tasks_exact (db : DB) (today : date) :
  exists overdue pending,
    view_overdue_tasks today db = (Returns overdue, db) /\
    view_pending_tasks db = (Returns pending, db) /\
    (forall t, In t overdue <->
               In t (tasks db) /\ Task.due_date t < today /\ Task.completed t = false) /\
    incl overdue pending.
Proof.
  unfold view_overdue_tasks, view_pending_tasks, query_task_all.
  do 2 eexists. do 2 (split; [reflexivity|]). split.
  - intros t. rewrite filter_In, andb_true_iff, Z.ltb_lt.
    destruct (Task.completed t); simpl; intuition congruence.
  - intros t H. apply filter_In in H. apply filter_In.
    destruct H as [Hin H]. apply andb_true_iff in H. tauto.
Qed.

(** C6: when [today + 7 days] is still a date, the weekly summary holds
    exactly the stored tasks due from [today] to [today + 7 days], both
    ends included: a task due today or on the seventh day after is
    listed, one due on the eighth day after is not. *)
Theorem weekly_summary_closed_interval (db : DB) (today : date) :
  MINORDINAL <= today -> today + 7 <= MAXORDINAL ->
  exists week,
    get_weekly_task_summary today db = (Returns week, db) /\
    (forall t, In t week <->
               In t (tasks db) /\ today <= Task.due_date t <= today + 7) /\
    (forall t, In t (tasks db) -> Task.due_date t = today -> In t week) /\
    (forall t, In t (tasks db) -> Task.due_date t = today + 7 -> In t week) /\
    (forall t, Task.due_date t = today + 8 -> ~ In t week).
Proof.
  intros Hmin Hmax. unfold get_weekly_task_summary, date_add_days.
  unfold MINORDINAL in Hmin.
  assert (Hok : (0 <? today + 7) && (today + 7 <=? MAXORDINAL) = true).
  { apply andb_true_iff. split; [apply Z.ltb_lt | apply Z.leb_le]; lia. }
  cbv zeta. rewrite Hok. unfold query_task_all. eexists. split; [reflexivity|].
  assert (Hiff : forall t,
    In t (filter (fun x => (today <=? Task.due_date x) && (Task.due_date x <=? today + 7))
                 (tasks db))
    <-> In t (tasks db) /\ today <= Task.due_date t <= today + 7).
  { intros t. rewrite filter_In, andb_true_iff, !Z.leb_le. tauto. }
  split; [exact Hiff|]. repeat split.
  - intros t Hin Hd. apply Hiff. split; [exact Hin | lia].
  - intros t Hin Hd. apply Hiff. split; [exact Hin | lia].
  - intros t Hd Hin. apply Hiff in Hin. lia.
Qed.

(** On the week planner, served on day 739200: the tasks due that day and
    seven days later are listed, those due eight days later or the day
    before are not. *)
Lemma weekly_summary_on_week_planner :
  (MINORDINAL <= 739200 /\ 739200 + 7 <= MAXORDINAL) /\
  exists week,
    get_weekly_task_summary 739200 week_planner = (Returns week, week_planner) /\
    map Task.id week = [1; 2].
Proof.
  split; [vm_compute; split; discriminate|].
  destruct (weekly_summary_closed_interval week_planner 739200)
    as (week & Hrun & _); [vm_compute; discriminate | vm_compute; discriminate |].
  exists week. split; [exact Hrun|].
  vm_compute in Hrun. injection Hrun as <-. reflexivity.
Defined.

(** ** Updates of a task *)

Lemma update_task_row_find (k : Z) (f : Task.t -> Task.t) (db : DB) :
  (forall x, Task.id (f x) = Task.id x) ->
  find (task_id_is k) (tasks (snd (update_task_row k f db)))
  = option_map f (find (task_id_is k) (tasks db)).
Proof.
  intros Hf. unfold update_task_row, task_id_is. simpl.
  rewrite (find_key_map Task.id).
  - destruct (find (fun x => Task.id x =? k) (tasks db)) as [a|] eqn:E; [|reflexivity].
    apply find_key_some in E. destruct E as [_ E]. simpl.
    apply Z.eqb_eq in E. now rewrite E.
  - intros x. destruct (Task.id x =? k); [apply Hf | reflexivity].
Qed.

(** C4: for a task that Get Task returns, Update Task returns that task
    with title, description and due date replaced by the arguments and
    with its id, completed flag and timetable id as they were; Get Task
    returns the same task afterwards.  The timetables and the tasks
    under other ids are as before. *)
Theorem update_task_sets_content (db : DB) (k : Z) (content : TaskCreate) (t : Task.t) :
  get_task k db = (Returns t, db) ->
  let t' := Task.mk (Task.id t) (tk_title content) (tk_description content)
                    (tk_due_date content) (Task.completed t) (Task.timetable_id t) in
  exists db',
    update_task k content db = (Returns t', db') /\
    get_task k db' = (Returns t', db') /\
    Task.id t' = k /\
    timetables db' = timetables db /\
    (forall j, j <> k -> fst (get_task j db') = fst (get_task j db)).
Proof.
  intros Hget t'. apply get_task_returns in Hget.
  destruct (find_key_some _ _ _ _ Hget) as [_ Hk].
  set (f := Task.set_content (tk_title content) (tk_description content)
                             (tk_due_date content)).
  assert (Hf : forall x, Task.id (f x) = Task.id x) by reflexivity.
  assert (Hfind : find (task_id_is k) (tasks (snd (update_task_row k f db))) = Some t').
  { rewrite update_task_row_find by exact Hf. now rewrite Hget. }
  exists (snd (update_task_row k f db)).
  split; [|split; [|split; [|split]]].
  - unfold update_task, bind, query_task_first. rewrite Hget, Hk.
    fold f. unfold update_task_row at 1. unfold refresh_task.
    change (mkDB (timetables db)
                 (map (fun x => if task_id_is k x then f x else x) (tasks db)))
      with (snd (update_task_row k f db)).
    now rewrite Hfind.
  - now apply get_task_found.
  - exact Hk.
  - reflexivity.
  - intros j Hj. unfold get_task, bind, query_task_first, task_id_is. simpl.
    rewrite (find_key_map_other Task.id f j k) by assumption.
    now destruct (find (fun x => Task.id x =? j) (tasks db)).
Qed.

(** On the planner: task 1 takes the content of the lab report and keeps
    its flag and its timetable. *)
Lemma update_task_on_planner :
  exists db',
    update_task 1 lab_report planner
    = (Returns (Task.mk 1 "Lab report" "Chemistry" 739207 false (Some 1)), db') /\
    get_task 1 db'
    = (Returns (Task.mk 1 "Lab report" "Chemistry" 739207 false (Some 1)), db').
Proof.
  destruct (update_task_sets_content planner 1 lab_report
              (Task.mk 1 "Essay" "History, 2000 words" 739200 false (Some 1))
              eq_refl) as (db' & Hupd & Hget & _).
  exists db'. split; [exact Hupd | exact Hget].
Defined.

(** C10: for a task that Get Task returns, Complete Task returns it with
    [completed] set and every other field as it was, and a second
    Complete Task returns the same task and leaves the database of the
    first; on a table with unique ids, completing a task that is already
    completed returns it and changes nothing. *)
Theorem mark_task_complete_idempotent (db : DB) (k : Z) (t : Task.t) :
  get_task k db = (Returns t, db) ->
  exists db1,
    mark_task_complete k db = (Returns (Task.set_completed true t), db1) /\
    mark_task_complete k db1 = (Returns (Task.set_completed true t), db1) /\
    (Task.completed t = true -> NoDup (map Task.id (tasks db)) ->
     mark_task_complete k db = (Returns t, db)).
Proof.
  intros Hget. apply get_task_returns in Hget.
  destruct (find_key_some _ _ _ _ Hget) as [Hin Hk].
  set (f := Task.set_completed true).
  assert (Hf : forall x, Task.id (f x) = Task.id x) by reflexivity.
  assert (Hrun : forall d u, find (task_id_is k) (tasks d) = Some u ->
            mark_task_complete k d = (Returns (f u), snd (update_task_row k f d))).
  { intros d u Hu. destruct (find_key_some _ _ _ _ Hu) as [_ Hku].
    unfold mark_task_complete, bind, query_task_first. rewrite Hu, Hku.
    fold f. unfold update_task_row at 1. unfold refresh_task.
    change (mkDB (timetables d)
                 (map (fun x => if task_id_is k x then f x else x) (tasks d)))
      with (snd (update_task_row k f d)).
    rewrite update_task_row_find by exact Hf. now rewrite Hu. }
  exists (snd (update_task_row k f db)). split; [|split].
  - now apply Hrun.
  - rewrite (Hrun _ (f t)).
    + f_equal. unfold update_task_row. simpl. f_equal.
      rewrite map_map. apply map_ext. intros x.
      destruct (task_id_is k x) eqn:E.
      * unfold task_id_is in *. simpl. now rewrite E.
      * now rewrite E.
    + rewrite update_task_row_find by exact Hf. now rewrite Hget.
  - intros Hdone Hnd.
    assert (Hft : f t = t) by (destruct t; simpl in *; subst; reflexivity).
    rewrite (Hrun _ t Hget), Hft. f_equal.
    unfold update_task_row, task_id_is. simpl.
    rewrite (map_key_fixed Task.id f k (tasks db) t) by assumption.
    now destruct db.
Qed.

(** On the planner: completing task 1, twice. *)
Lemma mark_task_complete_on_planner :
  exists db1,
    mark_task_complete 1 planner
    = (Returns (Task.mk 1 "Essay" "History, 2000 words" 739200 true (Some 1)), db1) /\
    mark_task_complete 1 db1
    = (Returns (Task.mk 1 "Essay" "History, 2000 words" 739200 true (Some 1)), db1).
Proof.
  destruct (mark_task_complete_idempotent planner 1
              (Task.mk 1 "Essay" "History, 2000 words" 739200 false (Some 1))
              eq_refl) as (db1 & Hfirst & Hsecond & _).
  exists db1. split; [exact Hfirst | exact Hsecond].
Defined.

(** ** Removing a task from a timetable *)

Lemma in_timetable_iff (k : Z) (x : Task.t) :
  in_timetable k x = true <-> Task.timetable_id x = Some k.
Proof.
  unfold in_timetable. destruct (Task.timetable_id x) as [j|].
  - rewrite Z.eqb_eq. split; congruence.
  - split; discriminate.
Qed.




(** ** Deleting a timetable *)

(** On the planner, timetable 1 holds the essay.  Deleting the timetable
    succeeds, and Get Task then returns the essay without a timetable:
    its [timetable_id] is no longer 1. *)
Lemma delete_timetable_clears_timetable_id :
  In (Task.mk 1 "Essay" "History, 2000 words" 739200 false (Some 1)) (tasks planner) /\
  fst (delete_timetable 1 planner) = Returns "Timetable deleted" /\
  fst (get_task 1 (snd (delete_timetable 1 planner)))
  = Returns (Task.mk 1 "Essay" "History, 2000 words" 739200 false None) /\
  ~ (exists t, fst (get_task 1 (snd (delete_timetable 1 planner))) = Returns t /\
               Task.timetable_id t = Some 1).
Proof.
  split; [now left|]. split; [reflexivity|]. split; [reflexivity|].
  intros (t & Hget & Htt). vm_compute in Hget. injection Hget as <-. discriminate.
Qed.

Lemma no_task_left_in_timetable (k : Z) (l : list Task.t) :
  filter (in_timetable k)
         (map (fun y => if in_timetable k y then Task.set_timetable_id None y else y) l)
  = [].
Proof.
  induction l as [|a l IH]; simpl; [reflexivity|].
  destruct (in_timetable k a) eqn:E.
  - exact IH.
  - rewrite E. exact IH.
Qed.

(** C1 (amended): deleting a timetable deletes no task.  On a table with
    unique ids, every task that referenced the timetable is still
    returned by Get Task with its id, title, description, due date and
    completed flag as they were, and with [timetable_id] cleared; it is
    no longer listed under the timetable. *)
Theorem delete_timetable_keeps_tasks (db : DB) (k : Z) (t : Task.t) :
  NoDup (map Task.id (tasks db)) ->
  In k (map Timetable.id (timetables db)) ->
  In t (tasks db) ->
  Task.timetable_id t = Some k ->
  exists db',
    delete_timetable k db = (Returns "Timetable deleted", db') /\
    map Task.id (tasks db') = map Task.id (tasks db) /\
    get_task (Task.id t) db' = (Returns (Task.set_timetable_id None t), db') /\
    view_tasks_in_timetable k db' = (Returns [], db').
Proof.
  intros Hnd Hk Hin Htt.
  apply (find_key_in Timetable.id) in Hk. destruct Hk as [x Hx].
  destruct (find_key_some _ _ _ _ Hx) as [_ Hxk].
  set (g := fun y => if in_timetable k y then Task.set_timetable_id None y else y).
  assert (Hg : forall y, Task.id (g y) = Task.id y).
  { intros y. unfold g. now destruct (in_timetable k y). }
  unfold delete_timetable, bind, query_timetable_first, timetable_id_is.
  rewrite Hx, Hxk. unfold delete_timetable_row, ret. fold g.
  eexists. split; [reflexivity|]. split; [|split].
  - simpl. now apply map_key_map.
  - apply get_task_found. simpl. unfold task_id_is.
    rewrite (find_key_map Task.id g) by exact Hg.
    rewrite (find_key_unique Task.id) by assumption. simpl.
    unfold g. apply in_timetable_iff in Htt. now rewrite Htt.
  - unfold view_tasks_in_timetable, query_task_all. simpl. unfold g.
    now rewrite no_task_left_in_timetable.
Qed.

(** On the planner: timetable 1 is deleted and the essay stays, detached. *)
Lemma delete_timetable_on_planner :
  exists db',
    delete_timetable 1 planner = (Returns "Timetable deleted", db') /\
    get_task 1 db'
    = (Returns (Task.mk 1 "Essay" "History, 2000 words" 739200 false None), db').
Proof.
  destruct (delete_timetable_keeps_tasks planner 1
              (Task.mk 1 "Essay" "History, 2000 words" 739200 false (Some 1)))
    as (db' & Hdel & _ & Hget & _).
  - vm_compute. repeat constructor; simpl; intuition discriminate.
  - vm_compute. tauto.
  - vm_compute. tauto.
  - reflexivity.
  - exists db'. split; [exact Hdel | exact Hget].
Defined.

(** ** Identity assignment *)

Lemma create_timetable_returns (b : TimetableCreate) (db : DB) :
  let x := Timetable.mk (next_rowid (map Timetable.id (timetables db))) (tc_name b) in
  create_timetable b db = (Returns x, mkDB (timetables db ++ [x]) (tasks db)).
Proof.
  unfold create_timetable, bind, add_timetable, refresh_timetable, timetable_id_is.
  cbv zeta. simpl.
  rewrite (find_key_inserted Timetable.id); [reflexivity | apply next_rowid_fresh | reflexivity].
Qed.

Lemma add_task_returns (title description : string) (due_date : date)
    (timetable_id : option Z) (db : DB) :
  let t := Task.mk (next_rowid (map Task.id (tasks db)))
                   title description due_date false timetable_id in
  (new_id <- add_task title description due_date timetable_id ;; refresh_task new_id) db
  = (Returns t, mkDB (timetables db) (tasks db ++ [t])).
Proof.
  unfold bind, add_task, refresh_task, task_id_is. cbv zeta. simpl.
  rewrite (find_key_inserted Task.id); [reflexivity | apply next_rowid_fresh | reflexivity].
Qed.

Lemma create_task_returns (b : TaskCreate) (db : DB) :
  let t := Task.mk (next_rowid (map Task.id (tasks db)))
                   (tk_title b) (tk_description b) (tk_due_date b) false None in
  create_task b db = (Returns t, mkDB (timetables db) (tasks db ++ [t])).
Proof. apply add_task_returns. Qed.

Lemma add_task_to_timetable_returns (k : Z) (b : TaskCreate) (db : DB) :
  let t := Task.mk (next_rowid (map Task.id (tasks db)))
                   (tk_title b) (tk_description b) (tk_due_date b) false (Some k) in
  add_task_to_timetable k b db = (Returns t, mkDB (timetables db) (tasks db ++ [t])).
Proof. apply add_task_returns. Qed.

(** Every handler, opened up to the table operations it performs. *)

Ltac open_handler :=
  unfold update_timetable, delete_timetable, get_timetable, view_timetables,
    view_tasks, get_task, update_task, delete_task, mark_task_complete,
    view_completed_tasks, view_pending_tasks, view_tasks_in_timetable,
    remove_task_from_timetable, set_task_reminder, view_overdue_tasks,
    get_weekly_task_summary, get_daily_task_summary,
    bind, ret, raise, query_timetable_first, query_timetable_all,
    query_task_first, query_task_all, update_timetable_row, update_task_row,
    delete_task_row, delete_timetable_row, refresh_timetable, refresh_task;
  repeat match goal with
         | |- context [match find ?p ?l with _ => _ end] => destruct (find p l); simpl
         | |- context [match date_add_days ?d ?n with _ => _ end] =>
             destruct (date_add_days d n); simpl
         end;
  simpl.

Ltac ids_kept key :=
  first
    [ apply ids_same
    | rewrite (map_key_map key);
      [ apply ids_same
      | let y := fresh "y" in
        intros y; simpl;
        repeat match goal with
               | |- context [if ?c then _ else _] => destruct c; simpl
               end;
        reflexivity ] ].

Lemma serve_timetable_ids_step (r : request) (db : DB) :
  ids_step (map Timetable.id (timetables db))
           (map Timetable.id (timetables (serve r db))).
Proof.
  destruct r; simpl;
    try (rewrite create_timetable_returns; simpl; rewrite map_app;
         apply ids_inserted, next_rowid_fresh);
    try (rewrite create_task_returns; apply ids_same);
    try (rewrite add_task_to_timetable_returns; apply ids_same);
    open_handler; try ids_kept Timetable.id.
  unfold timetable_id_is. rewrite (map_key_filter Timetable.id). apply ids_deleted.
Qed.

Lemma serve_task_ids_step (r : request) (db : DB) :
  ids_step (map Task.id (tasks db)) (map Task.id (tasks (serve r db))).
Proof.
  destruct r; simpl;
    try (rewrite create_timetable_returns; apply ids_same);
    try (rewrite create_task_returns; simpl; rewrite map_app;
         apply ids_inserted, next_rowid_fresh);
    try (rewrite add_task_to_timetable_returns; simpl; rewrite map_app;
         apply ids_inserted, next_rowid_fresh);
    open_handler; try ids_kept Task.id;
    unfold task_id_is; rewrite (map_key_filter Task.id); apply ids_deleted.
Qed.

Lemma ids_step_NoDup (old new : list Z) :
  ids_step old new -> NoDup old -> NoDup new.
Proof.
  intros Hstep Hnd. destruct Hstep as [|i Hfresh|i].
  - exact Hnd.
  - apply NoDup_app; [exact Hnd | repeat constructor; intros [] |].
    intros j Hj [<-|[]]. contradiction.
  - now apply NoDup_filter.
Qed.

(** The primary keys stay unique under every request, so they are unique
    in every database that a history of requests builds from the empty
    one. *)

Lemma serve_pk_unique (r : request) (db : DB) :
  pk_unique db -> pk_unique (serve r db).
Proof.
  intros [Htt Htk]. split.
  - exact (ids_step_NoDup _ _ (serve_timetable_ids_step r db) Htt).
  - exact (ids_step_NoDup _ _ (serve_task_ids_step r db) Htk).
Qed.

Lemma serve_all_pk_unique (rs : list request) (db : DB) :
  pk_unique db -> pk_unique (final_db (serve_all rs db)).
Proof.
  revert db. induction rs as [|r rs IH]; simpl; intros db H; [exact H|].
  apply IH. now apply serve_pk_unique.
Qed.

Lemma empty_db_pk_unique : pk_unique empty_db.
Proof. split; constructor. Qed.



(** * Further properties of the handlers *)

(** ** Creation and lookup *)

Lemma find_key_app_old {A : Type} (key : A -> Z) (k : Z) (l : list A) (a : A) :
  In k (map key l) ->
  find (fun x => key x =? k) (l ++ [a]) = find (fun x => key x =? k) l.
Proof.
  intros Hin. induction l as [|b l IH]; simpl in *; [contradiction|].
  destruct (Z.eqb_spec (key b) k) as [E|E]; [reflexivity|].
  apply IH. destruct Hin as [Hin|Hin]; [contradiction | exact Hin].
Qed.

(** X1: Create Timetable always succeeds; the timetable it returns has
    the requested name, is what Get Timetable returns under its id, and
    is the last entry of List Timetables; tasks are untouched and every
    timetable stored before is still returned under its id. *)
Theorem create_timetable_round_trip (b : TimetableCreate) (db : DB) :
  exists x db',
    create_timetable b db = (Returns x, db') /\
    Timetable.name x = tc_name b /\
    get_timetable (Timetable.id x) db' = (Returns x, db') /\
    view_timetables db' = (Returns (timetables db ++ [x]), db') /\
    tasks db' = tasks db /\
    (forall k, In k (map Timetable.id (timetables db)) ->
               fst (get_timetable k db') = fst (get_timetable k db)).
Proof.
  do 2 eexists. split; [apply create_timetable_returns|].
  split; [reflexivity|]. split; [|split; [|split]].
  - apply get_timetable_found. simpl. unfold timetable_id_is.
    apply (find_key_inserted Timetable.id); [apply next_rowid_fresh | reflexivity].
  - unfold view_timetables, query_timetable_all. simpl. now rewrite filter_all.
  - reflexivity.
  - intros k Hk. unfold get_timetable, bind, query_timetable_first, timetable_id_is.
    simpl. rewrite (find_key_app_old Timetable.id) by exact Hk.
    now destruct (find (fun x => Timetable.id x =? k) (timetables db)).
Qed.

(** X2: Create Task always succeeds; the task it returns carries the
    requested title, description and due date, is not completed and
    belongs to no timetable; Get Task returns it under its id, it is the
    last entry of List Tasks and it is listed as pending; timetables are
    untouched and every task stored before is still returned under its
    id. *)
Theorem create_task_round_trip (b : TaskCreate) (db : DB) :
  exists t db' pending,
    create_task b db = (Returns t, db') /\
    Task.title t = tk_title b /\
    Task.description t = tk_description b /\
    Task.due_date t = tk_due_date b /\
    Task.completed t = false /\
    Task.timetable_id t = None /\
    get_task (Task.id t) db' = (Returns t, db') /\
    view_tasks db' = (Returns (tasks db ++ [t]), db') /\
    view_pending_tasks db' = (Returns pending, db') /\ In t pending /\
    timetables db' = timetables db /\
    (forall k, In k (map Task.id (tasks db)) ->
               fst (get_task k db') = fst (get_task k db)).
Proof.
  do 3 eexists. split; [apply create_task_returns|].
  do 5 (split; [reflexivity|]). split; [|split; [|split; [|split; [|split]]]].
  - apply get_task_found. simpl. unfold task_id_is.
    apply (find_key_inserted Task.id); [apply next_rowid_fresh | reflexivity].
  - unfold view_tasks, query_task_all. simpl. now rewrite filter_all.
  - reflexivity.
  - simpl. apply filter_In. split; [|reflexivity].
    apply in_or_app. right. now left.
  - reflexivity.
  - intros k Hk. unfold get_task, bind, query_task_first, task_id_is. simpl.
    rewrite (find_key_app_old Task.id) by exact Hk.
    now destruct (find (fun x => Task.id x =? k) (tasks db)).
Qed.


(** ** Renaming a timetable *)

(** X4: for a timetable that Get Timetable returns, Update Timetable
    returns it under the same id with the new name, and Get Timetable
    returns the same afterwards; the ids of the table, the tasks, and the
    timetables under other ids are as before. *)
Theorem update_timetable_renames (db : DB) (k : Z) (b : TimetableCreate)
    (x : Timetable.t) :
  get_timetable k db = (Returns x, db) ->
  exists db',
    update_timetable k b db = (Returns (Timetable.mk k (tc_name b)), db') /\
    Timetable.id x = k /\
    get_timetable k db' = (Returns (Timetable.mk k (tc_name b)), db') /\
    map Timetable.id (timetables db') = map Timetable.id (timetables db) /\
    tasks db' = tasks db /\
    (forall j, j <> k -> fst (get_timetable j db') = fst (get_timetable j db)).
Proof.
  intros Hget.
  assert (Hfind : find (timetable_id_is k) (timetables db) = Some x).
  { revert Hget. unfold get_timetable, bind, query_timetable_first.
    destruct (find (timetable_id_is k) (timetables db)); unfold ret, raise; congruence. }
  destruct (find_key_some _ _ _ _ Hfind) as [_ Hk].
  set (f := fun y : Timetable.t => Timetable.mk (Timetable.id y) (tc_name b)).
  set (g := fun y => if Timetable.id y =? k then f y else y).
  assert (Hg : forall y, Timetable.id (g y) = Timetable.id y).
  { intros y. unfold g. now destruct (Timetable.id y =? k). }
  assert (Hnew : find (fun y => Timetable.id y =? k) (map g (timetables db))
                 = Some (Timetable.mk k (tc_name b))).
  { rewrite (find_key_map Timetable.id g) by exact Hg.
    unfold timetable_id_is in Hfind. rewrite Hfind. simpl. unfold g.
    rewrite Hk, Z.eqb_refl. unfold f. now rewrite Hk. }
  exists (mkDB (map g (timetables db)) (tasks db)).
  split; [|split; [|split; [|split; [|split]]]].
  - unfold update_timetable, bind, query_timetable_first. rewrite Hfind, Hk.
    unfold update_timetable_row, refresh_timetable, timetable_id_is.
    cbn [timetables tasks Timetable.id].
    change (map (fun y => if Timetable.id y =? k
                          then Timetable.mk (Timetable.id y) (tc_name b) else y)
                (timetables db))
      with (map g (timetables db)).
    now rewrite Hnew.
  - exact Hk.
  - apply get_timetable_found. exact Hnew.
  - simpl. now apply map_key_map.
  - reflexivity.
  - intros j Hj. unfold get_timetable, bind, query_timetable_first, timetable_id_is.
    simpl. unfold g.
    rewrite (find_key_map_other Timetable.id f j k) by (auto; reflexivity).
    now destruct (find (fun y => Timetable.id y =? j) (timetables db)).
Qed.

(** On the planner: timetable 1 is renamed. *)
Lemma update_timetable_on_planner :
  exists db',
    update_timetable 1 (mkTimetableCreate "Spring2025") planner
    = (Returns (Timetable.mk 1 "Spring2025"), db') /\
    get_timetable 1 db' = (Returns (Timetable.mk 1 "Spring2025"), db').
Proof.
  destruct (update_timetable_renames planner 1 (mkTimetableCreate "Spring2025")
              (Timetable.mk 1 "Fall2024") eq_refl) as (db' & Hupd & _ & Hget & _).
  exists db'. split; [exact Hupd | exact Hget].
Defined.

(** ** Listings by timetable and by day *)


(** X6: on a day [today] whose seventh day after is still a date, the
    daily summary lists exactly the stored tasks due [today]; each of
    them is in the weekly summary and none of them is overdue; and no
    overdue task is in the weekly summary. *)
Theorem daily_within_weekly (db : DB) (today : date) :
  MINORDINAL <= today -> today + 7 <= MAXORDINAL ->
  exists daily week overdue,
    get_daily_task_summary today db = (Returns daily, db) /\
    get_weekly_task_summary today db = (Returns week, db) /\
    view_overdue_tasks today db = (Returns overdue, db) /\
    (forall t, In t daily <-> In t (tasks db) /\ Task.due_date t = today) /\
    incl daily week /\
    (forall t, In t daily -> ~ In t overdue) /\
    (forall t, In t overdue -> ~ In t week).
Proof.
  intros Hmin Hmax. unfold MINORDINAL in Hmin.
  unfold get_daily_task_summary, get_weekly_task_summary, view_overdue_tasks,
    date_add_days, query_task_all.
  assert (Hok : (0 <? today + 7) && (today + 7 <=? MAXORDINAL) = true).
  { apply andb_true_iff. split; [apply Z.ltb_lt | apply Z.leb_le]; lia. }
  cbv zeta. rewrite Hok. do 3 eexists. do 3 (split; [reflexivity|]).
  split; [|split; [|split]].
  - intros t. now rewrite filter_In, Z.eqb_eq.
  - intros t Hin. apply filter_In in Hin. destruct Hin as [Hin Hd].
    apply Z.eqb_eq in Hd. apply filter_In. split; [exact Hin|].
    apply andb_true_iff. split; apply Z.leb_le; lia.
  - intros t Hin Hov. apply filter_In in Hin, Hov.
    destruct Hin as [_ Hd], Hov as [_ Hov].
    apply Z.eqb_eq in Hd. apply andb_true_iff in Hov. destruct Hov as [Hov _].
    apply Z.ltb_lt in Hov. lia.
  - intros t Hov Hin. apply filter_In in Hin, Hov.
    destruct Hin as [_ Hw], Hov as [_ Hov].
    apply andb_true_iff in Hw, Hov. destruct Hw as [Hw _], Hov as [Hov _].
    apply Z.leb_le in Hw. apply Z.ltb_lt in Hov. lia.
Qed.

(** On the week planner, served on day 739200: one task is due that day,
    and the task due the day before is the overdue one. *)
Lemma daily_on_week_planner :
  exists daily week overdue,
    get_daily_task_summary 739200 week_planner = (Returns daily, week_planner) /\
    get_weekly_task_summary 739200 week_planner = (Returns week, week_planner) /\
    view_overdue_tasks 739200 week_planner = (Returns overdue, week_planner) /\
    map Task.id daily = [1] /\ map Task.id week = [1; 2] /\ map Task.id overdue = [4].
Proof.
  destruct (daily_within_weekly week_planner 739200)
    as (daily & week & overdue & Hd & Hw & Ho & _);
    [vm_compute; discriminate | vm_compute; discriminate |].
  exists daily, week, overdue.
  split; [exact Hd|]. split; [exact Hw|]. split; [exact Ho|].
  vm_compute in Hd, Hw, Ho.
  injection Hd as <-. injection Hw as <-. injection Ho as <-.
  repeat split.
Defined.

(** X7: in the last seven days of year 9999 the weekly summary cannot
    form [today + 7 days]: it raises [OverflowError] and lists nothing,
    while the daily summary and the overdue listing of the same day
    still return. *)
Theorem weekly_summary_overflow (db : DB) (today : date) :
  MAXORDINAL < today + 7 ->
  get_weekly_task_summary today db = (Raises OverflowError, db) /\
  (exists daily, get_daily_task_summary today db = (Returns daily, db)) /\
  (exists overdue, view_overdue_tasks today db = (Returns overdue, db)).
Proof.
  intros Hlate. split; [|split].
  - unfold get_weekly_task_summary, date_add_days. cbv zeta.
    assert (Hno : (today + 7 <=? MAXORDINAL) = false) by (apply Z.leb_gt; exact Hlate).
    rewrite Hno, andb_false_r. reflexivity.
  - eexists. reflexivity.
  - eexists. reflexivity.
Qed.

(** On the week planner, served on 9999-12-31. *)
Lemma weekly_summary_on_last_day :
  MAXORDINAL < MAXORDINAL + 7 /\
  get_weekly_task_summary MAXORDINAL week_planner = (Raises OverflowError, week_planner).
Proof.
  split; [reflexivity|].
  apply (weekly_summary_overflow week_planner MAXORDINAL). reflexivity.
Defined.

(** ** What requests leave alone *)

(** X8: the requests that only query (the views, the lookups, the three
    date listings and the reminder) leave the database exactly as it
    was, whether they return or raise. *)
Theorem queries_write_nothing (r : request) (db : DB) :
  is_query r = true -> serve r db = db.
Proof.
  intros Hq. destruct r; simpl in Hq; try discriminate; simpl;
    open_handler; reflexivity.
Qed.

(** On the planner: a lookup that misses and a listing. *)
Lemma queries_on_planner :
  serve (GetTask 7) planner = planner /\ serve ViewCompletedTasks planner = planner.
Proof.
  split.
  - apply (queries_write_nothing (GetTask 7) planner). reflexivity.
  - apply (queries_write_nothing ViewCompletedTasks planner). reflexivity.
Defined.

(** ** Failures *)

Lemma refresh_task_after_update (k : Z) (f : Task.t -> Task.t) (db : DB) (t : Task.t) :
  (forall x, Task.id (f x) = Task.id x) ->
  find (task_id_is k) (tasks db) = Some t ->
  (update_task_row (Task.id t) f ;;; refresh_task (Task.id t)) db
  = (Returns (f t), snd (update_task_row k f db)).
Proof.
  intros Hf Hfind. destruct (find_key_some _ _ _ _ Hfind) as [_ Hk].
  rewrite Hk. unfold bind. unfold update_task_row at 1. unfold refresh_task.
  change (mkDB (timetables db)
               (map (fun x => if task_id_is k x then f x else x) (tasks db)))
    with (snd (update_task_row k f db)).
  rewrite update_task_row_find by exact Hf. now rewrite Hfind.
Qed.







(** ** Keys under histories of requests *)

(** X10: when the primary keys of both tables are unique, they are still
    unique after any history of requests. *)
Theorem history_keeps_pk_unique (rs : list request) (db : DB) :
  pk_unique db -> pk_unique (final_db (serve_all rs db)).
Proof.
  revert db. induction rs as [|r rs IH]; simpl; intros db Hdb; [exact Hdb|].
  apply IH. apply serve_pk_unique. exact Hdb.
Qed.

(** From the planner with timetables 5 and 7: a creation, a deletion and
    another creation. *)
Lemma history_on_planner_of_seven :
  pk_unique (final_db (serve_all [CreateTask essay; DeleteTimetable 7;
                                  CreateTimetable (mkTimetableCreate "Winter")]
                                 planner_of_seven)).
Proof.
  apply (history_keeps_pk_unique _ planner_of_seven).
  split; vm_compute; repeat constructor; simpl; intuition discriminate.
Defined.

Lemma sorted_snoc (l : list Z) (n : Z) :
  StronglySorted Z.lt l -> (forall x, In x l -> x < n) ->
  StronglySorted Z.lt (l ++ [n]).
Proof.
  induction l as [|a l IH]; simpl; intros Hs Hlt.
  - repeat constructor.
  - inversion Hs as [|? ? Hs' Hall]; subst. constructor.
    + apply IH; [exact Hs' | intros x Hx; apply Hlt; now right].
    + apply Forall_app. split; [exact Hall|]. repeat constructor.
      apply Hlt. now left.
Qed.

Lemma sorted_filter (p : Z -> bool) (l : list Z) :
  StronglySorted Z.lt l -> StronglySorted Z.lt (filter p l).
Proof.
  induction l as [|a l IH]; simpl; intros Hs; [constructor|].
  inversion Hs as [|? ? Hs' Hall]; subst.
  destruct (p a); [|now apply IH].
  constructor; [now apply IH|].
  rewrite Forall_forall in *. intros x Hx. apply filter_In in Hx. now apply Hall.
Qed.

Lemma ids_in_order_insert (ids : list Z) :
  ids_in_order ids -> ids_in_order (ids ++ [next_rowid ids]).
Proof.
  intros [Hs Hpos]. split.
  - apply sorted_snoc; [exact Hs | apply next_rowid_above].
  - apply Forall_app. split; [exact Hpos|]. repeat constructor.
    destruct ids as [|a rest]; [simpl; lia|].
    assert (Ha : a < next_rowid (a :: rest)) by (apply next_rowid_above; now left).
    inversion Hpos; subst. lia.
Qed.

Lemma ids_in_order_delete (p : Z -> bool) (ids : list Z) :
  ids_in_order ids -> ids_in_order (filter p ids).
Proof.
  intros [Hs Hpos]. split; [now apply sorted_filter|].
  rewrite Forall_forall in *. intros x Hx. apply filter_In in Hx. now apply Hpos.
Qed.

Ltac ids_unchanged key :=
  first
    [ reflexivity
    | rewrite (map_key_map key);
      [ reflexivity
      | let y := fresh "y" in
        intros y; simpl;
        repeat match goal with
               | |- context [if ?c then _ else _] => destruct c; simpl
               end;
        reflexivity ] ].

Lemma serve_timetable_ids_cases (r : request) (db : DB) :
  map Timetable.id (timetables (serve r db)) = map Timetable.id (timetables db) \/
  map Timetable.id (timetables (serve r db))
  = map Timetable.id (timetables db) ++ [next_rowid (map Timetable.id (timetables db))] \/
  exists i, map Timetable.id (timetables (serve r db))
            = filter (fun j => negb (j =? i)) (map Timetable.id (timetables db)).
Proof.
  destruct r; simpl;
    try (rewrite create_timetable_returns; simpl; rewrite map_app; right; left;
         reflexivity);
    try (rewrite create_task_returns; left; reflexivity);
    try (rewrite add_task_to_timetable_returns; left; reflexivity);
    open_handler; try (left; ids_unchanged Timetable.id).
  right. right. eexists. unfold timetable_id_is.
  apply (map_key_filter Timetable.id).
Qed.

Lemma serve_task_ids_cases (r : request) (db : DB) :
  map Task.id (tasks (serve r db)) = map Task.id (tasks db) \/
  map Task.id (tasks (serve r db))
  = map Task.id (tasks db) ++ [next_rowid (map Task.id (tasks db))] \/
  exists i, map Task.id (tasks (serve r db))
            = filter (fun j => negb (j =? i)) (map Task.id (tasks db)).
Proof.
  destruct r; simpl;
    try (rewrite create_timetable_returns; left; reflexivity);
    try (rewrite create_task_returns; simpl; rewrite map_app; right; left;
         reflexivity);
    try (rewrite add_task_to_timetable_returns; simpl; rewrite map_app; right; left;
         reflexivity);
    open_handler; try (left; ids_unchanged Task.id);
    right; right; eexists; unfold task_id_is; apply (map_key_filter Task.id).
Qed.

Lemma serve_ids_in_order (r : request) (db : DB) :
  ids_in_order (map Timetable.id (timetables db)) /\
  ids_in_order (map Task.id (tasks db)) ->
  ids_in_order (map Timetable.id (timetables (serve r db))) /\
  ids_in_order (map Task.id (tasks (serve r db))).
Proof.
  intros [Htt Htk]. split.
  - destruct (serve_timetable_ids_cases r db) as [E|[E|[i E]]]; rewrite E.
    + exact Htt.
    + now apply ids_in_order_insert.
    + now apply ids_in_order_delete.
  - destruct (serve_task_ids_cases r db) as [E|[E|[i E]]]; rewrite E.
    + exact Htk.
    + now apply ids_in_order_insert.
    + now apply ids_in_order_delete.
Qed.

(** X11: in every database that a history of requests builds from the
    empty one, ids start at 1 or above and each table holds its rows in
    strictly increasing id order; so List Timetables and List Tasks
    return their records in the order of their ids. *)
Theorem listings_in_id_order (rs : list request) :
  exists db all_timetables all_tasks,
    db = final_db (serve_all rs empty_db) /\
    view_timetables db = (Returns all_timetables, db) /\
    view_tasks db = (Returns all_tasks, db) /\
    ids_in_order (map Timetable.id all_timetables) /\
    ids_in_order (map Task.id all_tasks).
Proof.
  assert (Hinv : forall hs db,
    ids_in_order (map Timetable.id (timetables db)) /\
    ids_in_order (map Task.id (tasks db)) ->
    ids_in_order (map Timetable.id (timetables (final_db (serve_all hs db)))) /\
    ids_in_order (map Task.id (tasks (final_db (serve_all hs db))))).
  { induction hs as [|r hs IH]; simpl; intros db Hdb; [exact Hdb|].
    apply IH. now apply serve_ids_in_order. }
  do 3 eexists. split; [reflexivity|].
  unfold view_timetables, view_tasks, query_timetable_all, query_task_all.
  do 2 (split; [reflexivity|]). rewrite !filter_all.
  apply Hinv. simpl. repeat split; constructor.
Qed.

(** ** Creating and deleting *)

Lemma filter_out_inserted {A : Type} (key : A -> Z) (k : Z) (l : list A) (a : A) :
  ~ In k (map key l) -> key a = k ->
  filter (fun x => negb (key x =? k)) (l ++ [a]) = l.
Proof.
  intros Hfresh Hk. rewrite filter_app. simpl. rewrite Hk, Z.eqb_refl. simpl.
  rewrite app_nil_r. induction l as [|b l IH]; simpl in *; [reflexivity|].
  destruct (Z.eqb_spec (key b) k) as [E|E]; simpl.
  - exfalso. apply Hfresh. now left.
  - f_equal. apply IH. tauto.
Qed.

(** X12: deleting the task that Create Task has just returned succeeds
    and gives back the database from before the creation. *)
Theorem delete_undoes_create_task (b : TaskCreate) (db : DB) :
  exists t db',
    create_task b db = (Returns t, db') /\
    delete_task (Task.id t) db' = (Returns "Task deleted", db).
Proof.
  do 2 eexists. split; [apply create_task_returns|].
  unfold delete_task, bind, query_task_first, task_id_is. simpl.
  rewrite (find_key_inserted Task.id); [|apply next_rowid_fresh | reflexivity].
  unfold delete_task_row, ret, task_id_is. simpl.
  rewrite (filter_out_inserted Task.id); [|apply next_rowid_fresh | reflexivity].
  now destruct db.
Qed.

Lemma clear_unreferenced (k : Z) (l : list Task.t) :
  (forall t, In t l -> Task.timetable_id t <> Some k) ->
  map (fun x => if in_timetable k x then Task.set_timetable_id None x else x) l = l.
Proof.
  intros Hno. rewrite <- (map_id l) at 2. apply map_ext_in. intros t Hin.
  destruct (in_timetable k t) eqn:E; [|reflexivity].
  apply in_timetable_iff in E. now apply Hno in E.
Qed.

(** X13: deleting the timetable that Create Timetable has just returned
    succeeds and gives back the timetables table from before the
    creation and the same task ids; the whole database is given back
    when no stored task referred to the id that the timetable received
    (tasks added earlier under that id, then not stored as a timetable,
    would have been detached by the deletion). *)
Theorem delete_undoes_create_timetable (b : TimetableCreate) (db : DB) :
  exists x db' db'',
    create_timetable b db = (Returns x, db') /\
    delete_timetable (Timetable.id x) db' = (Returns "Timetable deleted", db'') /\
    timetables db'' = timetables db /\
    map Task.id (tasks db'') = map Task.id (tasks db) /\
    ((forall t, In t (tasks db) -> Task.timetable_id t <> Some (Timetable.id x)) ->
     db'' = db).
Proof.
  do 3 eexists. split; [apply create_timetable_returns|].
  unfold delete_timetable, bind, query_timetable_first, timetable_id_is. simpl.
  rewrite (find_key_inserted Timetable.id); [|apply next_rowid_fresh | reflexivity].
  unfold delete_timetable_row, ret, timetable_id_is. simpl.
  rewrite (filter_out_inserted Timetable.id); [|apply next_rowid_fresh | reflexivity].
  split; [reflexivity|]. split; [reflexivity|]. split.
  - simpl. apply (map_key_map Task.id). intros y.
    now destruct (in_timetable _ y).
  - intros Hno. rewrite clear_unreferenced by exact Hno. now destruct db.
Qed.

(** ** Effects of a completion and of the deletions on the rest *)

(** X14: for a task that Get Task returns, after Complete Task the task
    returned is in the completed listing, the pending listing holds
    exactly the tasks that were stored, not completed, under another id,
    and timetables are untouched. *)
Theorem mark_task_complete_moves (db : DB) (k : Z) (t : Task.t) :
  get_task k db = (Returns t, db) ->
  exists db' done pending,
    mark_task_complete k db = (Returns (Task.set_completed true t), db') /\
    view_completed_tasks db' = (Returns done, db') /\
    view_pending_tasks db' = (Returns pending, db') /\
    In (Task.set_completed true t) done /\
    (forall u, In u pending <->
               In u (tasks db) /\ Task.completed u = false /\ Task.id u <> k) /\
    timetables db' = timetables db.
Proof.
  intros Hget. apply get_task_returns in Hget.
  destruct (find_key_some _ _ _ _ Hget) as [Hin Hk].
  set (f := Task.set_completed true).
  exists (snd (update_task_row k f db)). do 2 eexists.
  split; [|split; [reflexivity | split; [reflexivity | split; [|split]]]].
  - unfold mark_task_complete. unfold bind at 1. unfold query_task_first.
    rewrite Hget. apply (refresh_task_after_update k); [reflexivity | exact Hget].
  - simpl. apply filter_In. split; [|reflexivity].
    apply in_map_iff. exists t. split; [|exact Hin].
    unfold task_id_is. apply Z.eqb_eq in Hk. now rewrite Hk.
  - intros u. simpl. rewrite filter_In, in_map_iff. unfold task_id_is. split.
    + intros [(x & Hx & Hxin) Hu].
      destruct (Z.eqb_spec (Task.id x) k) as [E|E]; subst u.
      * discriminate.
      * destruct (Task.completed x) eqn:Ec; [discriminate|]. tauto.
    + intros (Hu & Hc & Hid). split.
      * exists u. split; [|exact Hu].
        destruct (Z.eqb_spec (Task.id u) k); [contradiction | reflexivity].
      * now rewrite Hc.
  - reflexivity.
Qed.

(** On the planner: the essay is completed and nothing is pending. *)
Lemma mark_task_complete_moves_on_planner :
  exists db' done pending,
    mark_task_complete 1 planner
    = (Returns (Task.mk 1 "Essay" "History, 2000 words" 739200 true (Some 1)), db') /\
    view_completed_tasks db' = (Returns done, db') /\
    view_pending_tasks db' = (Returns pending, db') /\
    In (Task.mk 1 "Essay" "History, 2000 words" 739200 true (Some 1)) done.
Proof.
  destruct (mark_task_complete_moves planner 1
              (Task.mk 1 "Essay" "History, 2000 words" 739200 false (Some 1))
              eq_refl) as (db' & done & pending & Hrun & Hd & Hp & Hin & _).
  exists db', done, pending. repeat split; assumption.
Defined.

(** X15: deleting a task whose id is stored removes the rows of that id
    and nothing else: the tasks left are exactly those stored under
    other ids, each still returned by Get Task, and timetables are
    untouched. *)
Theorem delete_task_removes_only_it (db : DB) (k : Z) :
  In k (map Task.id (tasks db)) ->
  exists db' remaining,
    delete_task k db = (Returns "Task deleted", db') /\
    view_tasks db' = (Returns remaining, db') /\
    (forall u, In u remaining <-> In u (tasks db) /\ Task.id u <> k) /\
    (forall j, j <> k -> fst (get_task j db') = fst (get_task j db)) /\
    timetables db' = timetables db.
Proof.
  intros Hin. apply (find_key_in Task.id) in Hin. destruct Hin as [t Ht].
  destruct (find_key_some _ _ _ _ Ht) as [_ Hk].
  unfold delete_task, bind, query_task_first, task_id_is. rewrite Ht, Hk.
  unfold delete_task_row, ret. do 2 eexists. split; [reflexivity|].
  unfold view_tasks, query_task_all. simpl. rewrite filter_all.
  split; [reflexivity|]. split; [|split].
  - intros u. rewrite filter_In. unfold task_id_is.
    destruct (Z.eqb_spec (Task.id u) k); simpl; intuition congruence.
  - intros j Hj. unfold get_task, bind, query_task_first, task_id_is. simpl.
    rewrite (find_key_deleted_other Task.id j k) by exact Hj.
    now destruct (find (fun x => Task.id x =? j) (tasks db)).
  - reflexivity.
Qed.

(** On the planner: the essay is deleted, the lab report stays. *)
Lemma delete_task_on_planner :
  exists db',
    delete_task 1 planner = (Returns "Task deleted", db') /\
    fst (get_task 2 db') = fst (get_task 2 planner).
Proof.
  destruct (delete_task_removes_only_it planner 1) as (db' & rest & Hdel & _ & _ & Hget & _).
  - vm_compute. tauto.
  - exists db'. split; [exact Hdel|]. apply Hget. discriminate.
Defined.

Lemma other_timetable_listing_kept (j k : Z) (l : list Task.t) :
  j <> k ->
  filter (in_timetable j)
         (map (fun x => if in_timetable k x then Task.set_timetable_id None x else x) l)
  = filter (in_timetable j) l.
Proof.
  intros Hjk. induction l as [|a l IH]; simpl; [reflexivity|].
  destruct (in_timetable k a) eqn:Ek.
  - assert (Hj : in_timetable j a = false).
    { apply in_timetable_iff in Ek. unfold in_timetable. rewrite Ek.
      apply Z.eqb_neq. congruence. }
    rewrite Hj. exact IH.
  - now rewrite IH.
Qed.

(** X16: deleting a timetable whose id is stored leaves the other
    timetables retrievable, keeps every task that did not refer to it
    exactly as it was, and leaves the listing of every other timetable
    unchanged. *)
Theorem delete_timetable_spares_others (db : DB) (k : Z) :
  In k (map Timetable.id (timetables db)) ->
  exists db',
    delete_timetable k db = (Returns "Timetable deleted", db') /\
    (forall j, j <> k -> fst (get_timetable j db') = fst (get_timetable j db)) /\
    (forall t, In t (tasks db) -> Task.timetable_id t <> Some k -> In t (tasks db')) /\
    (forall j, j <> k ->
       fst (view_tasks_in_timetable j db') = fst (view_tasks_in_timetable j db)).
Proof.
  intros Hin. apply (find_key_in Timetable.id) in Hin. destruct Hin as [x Hx].
  destruct (find_key_some _ _ _ _ Hx) as [_ Hk].
  unfold delete_timetable, bind, query_timetable_first, timetable_id_is.
  rewrite Hx, Hk. unfold delete_timetable_row, ret. eexists.
  split; [reflexivity|]. split; [|split].
  - intros j Hj. unfold get_timetable, bind, query_timetable_first, timetable_id_is.
    simpl. rewrite (find_key_deleted_other Timetable.id j k) by exact Hj.
    now destruct (find (fun y => Timetable.id y =? j) (timetables db)).
  - intros t Ht Hother. simpl. apply in_map_iff. exists t. split; [|exact Ht].
    destruct (in_timetable k t) eqn:E; [|reflexivity].
    apply in_timetable_iff in E. contradiction.
  - intros j Hj. unfold view_tasks_in_timetable, query_task_all. simpl.
    now rewrite other_timetable_listing_kept.
Qed.

(** On the planner of timetables 5 and 7: deleting timetable 5 keeps the
    task of timetable 7 and its listing. *)
Lemma delete_timetable_on_planner_of_seven :
  exists db',
    delete_timetable 5 planner_of_seven = (Returns "Timetable deleted", db') /\
    fst (view_tasks_in_timetable 7 db') = fst (view_tasks_in_timetable 7 planner_of_seven).
Proof.
  destruct (delete_timetable_spares_others planner_of_seven 5)
    as (db' & Hdel & _ & _ & Hlist).
  - vm_compute. tauto.
  - exists db'. split; [exact Hdel|]. apply Hlist. discriminate.
Defined.

(** ** What a request can do to a stored task *)

Ltac source_row H :=
  repeat first
    [ apply in_map_iff in H; destruct H as (?x & <- & H)
    | apply filter_In in H; destruct H as [H _] ].

Ltac through_branches :=
  repeat match goal with
         | |- context [if ?c then _ else _] => destruct c; simpl
         end.

(** Every task row after a request is the row just inserted, under the
    next rowid, or stems from a row stored before, with the same id. *)

Lemma serve_task_rows (r : request) (db : DB) (t' : Task.t) :
  In t' (tasks (serve r db)) ->
  Task.id t' = next_rowid (map Task.id (tasks db)) \/
  exists t,
    In t (tasks db) /\ Task.id t' = Task.id t /\
    (Task.completed t = true -> Task.completed t' = true) /\
    (Task.timetable_id t' = Task.timetable_id t \/ Task.timetable_id t' = None) /\
    match r with
    | UpdateTask _ _ => True
    | _ => Task.title t' = Task.title t /\
           Task.description t' = Task.description t /\
           Task.due_date t' = Task.due_date t
    end.
Proof.
  destruct r; simpl;
    try (rewrite create_timetable_returns; simpl; intros Hin; right; exists t';
         repeat split; now auto);
    try (first [rewrite create_task_returns | rewrite add_task_to_timetable_returns];
         simpl; intros Hin; apply in_app_or in Hin;
         destruct Hin as [Hin|[<-|[]]];
         [right; exists t'; repeat split; now auto | left; reflexivity]);
    open_handler; intros Hin; right;
    match goal with
    | H : In _ (map _ _) |- _ =>
        apply in_map_iff in H; destruct H as (x & <- & H); exists x
    | H : In _ (filter _ _) |- _ =>
        apply filter_In in H; destruct H as [H _]; exists t'
    | _ => exists t'
    end;
    (split; [assumption|]); through_branches; repeat split; auto.
Qed.

(** X17: on a table with unique ids, no request takes a completion back
    or moves a task to another timetable: whatever the request, a stored
    task that is completed is still completed if it is still stored, and
    its timetable id is the one it had or has been cleared. *)
Theorem completion_and_timetable_stay (r : request) (db : DB) (t t' : Task.t) :
  NoDup (map Task.id (tasks db)) ->
  In t (tasks db) ->
  In t' (tasks (serve r db)) ->
  Task.id t' = Task.id t ->
  (Task.completed t = true -> Task.completed t' = true) /\
  (Task.timetable_id t' = Task.timetable_id t \/ Task.timetable_id t' = None).
Proof.
  intros Hnd Hin Hin' Hid.
  destruct (serve_task_rows r db t' Hin') as [Hnew|(t0 & Hin0 & Hid0 & Hc & Htt & _)].
  - exfalso. apply (next_rowid_fresh (map Task.id (tasks db))).
    rewrite <- Hnew, Hid. now apply in_map.
  - assert (H0 : find (fun x => Task.id x =? Task.id t0) (tasks db) = Some t0)
      by now apply find_key_unique.
    assert (H1 : find (fun x => Task.id x =? Task.id t) (tasks db) = Some t)
      by now apply find_key_unique.
    rewrite <- Hid0, Hid in H0. assert (t0 = t) by congruence. subst t0.
    split; assumption.
Qed.

(** On the planner: renaming the content of the completed lab report
    leaves it completed and without a timetable. *)
Lemma completion_stays_on_planner :
  In (Task.mk 2 "Lab report" "Chemistry" 739207 true None) (tasks planner) /\
  In (Task.mk 2 "Essay" "History, 2000 words" 739200 true None)
     (tasks (serve (UpdateTask 2 essay) planner)) /\
  Task.completed (Task.mk 2 "Essay" "History, 2000 words" 739200 true None) = true.
Proof.
  assert (Hbefore : In (Task.mk 2 "Lab report" "Chemistry" 739207 true None)
                       (tasks planner)) by (vm_compute; tauto).
  assert (Hafter : In (Task.mk 2 "Essay" "History, 2000 words" 739200 true None)
                      (tasks (serve (UpdateTask 2 essay) planner)))
    by (vm_compute; tauto).
  split; [exact Hbefore|]. split; [exact Hafter|].
  apply (completion_and_timetable_stay (UpdateTask 2 essay) planner
           (Task.mk 2 "Lab report" "Chemistry" 739207 true None)
           (Task.mk 2 "Essay" "History, 2000 words" 739200 true None)).
  - vm_compute. repeat constructor; simpl; intuition discriminate.
  - exact Hbefore.
  - exact Hafter.
  - reflexivity.
  - reflexivity.
Defined.

(** X18: on a table with unique ids, only Update Task changes what a
    task says: under every other request a stored task that is still
    stored has the title, description and due date it had. *)
Theorem content_changes_only_by_update (r : request) (db : DB) (t t' : Task.t) :
  NoDup (map Task.id (tasks db)) ->
  (forall k b, r <> UpdateTask k b) ->
  In t (tasks db) ->
  In t' (tasks (serve r db)) ->
  Task.id t' = Task.id t ->
  Task.title t' = Task.title t /\
  Task.description t' = Task.description t /\
  Task.due_date t' = Task.due_date t.
Proof.
  intros Hnd Hr Hin Hin' Hid.
  destruct (serve_task_rows r db t' Hin') as [Hnew|(t0 & Hin0 & Hid0 & _ & _ & Hsame)].
  - exfalso. apply (next_rowid_fresh (map Task.id (tasks db))).
    rewrite <- Hnew, Hid. now apply in_map.
  - assert (H0 : find (fun x => Task.id x =? Task.id t0) (tasks db) = Some t0)
      by now apply find_key_unique.
    assert (H1 : find (fun x => Task.id x =? Task.id t) (tasks db) = Some t)
      by now apply find_key_unique.
    rewrite <- Hid0, Hid in H0. assert (t0 = t) by congruence. subst t0.
    destruct r; try exact Hsame. exfalso. now apply (Hr task_id task).
Qed.

(** On the planner: deleting timetable 1 detaches the essay and leaves
    what it says. *)
Lemma content_kept_on_planner :
  In (Task.mk 1 "Essay" "History, 2000 words" 739200 false (Some 1)) (tasks planner) /\
  In (Task.mk 1 "Essay" "History, 2000 words" 739200 false None)
     (tasks (serve (DeleteTimetable 1) planner)) /\
  Task.title (Task.mk 1 "Essay" "History, 2000 words" 739200 false None) = "Essay".
Proof.
  assert (Hbefore : In (Task.mk 1 "Essay" "History, 2000 words" 739200 false (Some 1))
                       (tasks planner)) by (vm_compute; tauto).
  assert (Hafter : In (Task.mk 1 "Essay" "History, 2000 words" 739200 false None)
                      (tasks (serve (DeleteTimetable 1) planner)))
    by (vm_compute; tauto).
  split; [exact Hbefore|]. split; [exact Hafter|].
  apply (content_changes_only_by_update (DeleteTimetable 1) planner
           (Task.mk 1 "Essay" "History, 2000 words" 739200 false (Some 1))
           (Task.mk 1 "Essay" "History, 2000 words" 739200 false None)).
  - vm_compute. repeat constructor; simpl; intuition discriminate.
  - discriminate.
  - exact Hbefore.
  - exact Hafter.
  - reflexivity.
Defined.

(** ** Dispatch *)

(** The route selected matches the path, and is one of the table. *)

Lemma route_for_selected (rs : list route) (partial : option route)
    (method : string) (path : list string) (m : Match) (r : route) :
  route_for rs partial method path = Some (m, r) ->
  partial = Some r \/ (In r rs /\ path_matches (route_path r) path = true).
Proof.
  revert partial. induction rs as [|a rs IH]; simpl; intros partial H.
  - destruct partial as [p|]; simpl in H; [|discriminate].
    left. congruence.
  - unfold matches in H.
    destruct (path_matches (route_path a) path) eqn:Epath.
    + destruct (String.eqb method (route_method a)).
      * injection H as _ <-. right. split; [now left | exact Epath].
      * apply IH in H. destruct H as [H|[Hin Hm]].
        -- destruct partial as [p|]; [now left|].
           injection H as <-. right. split; [now left | exact Epath].
        -- right. split; [now right | exact Hm].
    + apply IH in H. destruct H as [H|[Hin Hm]]; [now left|].
      right. split; [now right | exact Hm].
Qed.

Lemma two_literals_match (a b : string) (path : list string) :
  path_matches [Lit a; Lit b] path = true -> path = [a; b].
Proof.
  destruct path as [|s1 [|s2 [|s3 rest]]]; simpl; try discriminate.
  - now rewrite andb_false_r.
  - rewrite andb_true_r. intros H. apply andb_true_iff in H. destruct H as [H1 H2].
    apply String.eqb_eq in H1, H2. now subst.
  - now rewrite !andb_false_r.
Qed.

(** One step of the router on a route whose pattern does not match the
    path, and on one whose pattern does. *)

Lemma route_for_cons_none (r : route) (rs : list route) (partial : option route)
    (method : string) (path : list string) :
  path_matches (route_path r) path = false ->
  route_for (r :: rs) partial method path = route_for rs partial method path.
Proof.
  intros H. simpl. unfold matches. now rewrite H.
Qed.

Lemma route_for_cons_some (r : route) (rs : list route) (partial : option route)
    (method : string) (path : list string) :
  path_matches (route_path r) path = true ->
  route_for (r :: rs) partial method path
  = if String.eqb method (route_method r)
    then Some (FULL, r)
    else route_for rs (match partial with None => Some r | Some _ => partial end)
                   method path.
Proof.
  intros H. simpl. unfold matches. rewrite H.
  now destruct (String.eqb method (route_method r)).
Qed.

Ltac walk_routes :=
  repeat first
    [ rewrite route_for_cons_none by (vm_compute; reflexivity)
    | rewrite route_for_cons_some by (vm_compute; reflexivity);
      cbn [route_method];
      match goal with
      | H : String.eqb ?a ?b = _ |- context [String.eqb ?a ?b] => rewrite H
      | |- context [String.eqb ?a ?b] => destruct (String.eqb a b) eqn:?
      end;
      cbv beta iota ].

(** The endpoint selected belongs to a route of the table that matches
    the path. *)

Lemma dispatch_selected (method : string) (path : list string) (m : Match)
    (e : Endpoint.t) :
  dispatch method path = Some (m, e) ->
  exists r, In r routes /\ path_matches (route_path r) path = true /\
            route_for routes None method path = Some (m, r) /\ route_endpoint r = e.
Proof.
  unfold dispatch. intros H.
  destruct (route_for routes None method path) as [[m0 r]|] eqn:E; [|discriminate H].
  simpl in H. injection H as -> Hep. exists r.
  destruct (route_for_selected _ _ _ _ _ _ E) as [Hp|[Hin Hpm]]; [discriminate Hp|].
  repeat split; assumption.
Qed.

(** The routes of the five listings are the literal paths /task/<name>;
    on each of these paths the route selected is one of /task/{task_id}. *)

Lemma listing_route_path (r : route) :
  In r routes ->
  In (route_endpoint r)
     [Endpoint.view_completed_tasks; Endpoint.view_pending_tasks;
      Endpoint.view_overdue_tasks; Endpoint.get_weekly_task_summary;
      Endpoint.get_daily_task_summary] ->
  exists seg, route_path r = [Lit "task"; Lit seg] /\
              In seg ["completed"; "pending"; "overdue"; "weekly-summary";
                      "daily-summary"].
Proof.
  intros Hin Hep. unfold routes in Hin.
  repeat (destruct Hin as [<-|Hin];
          [first [ exfalso; simpl in Hep; intuition discriminate
                 | eexists; split; [reflexivity|]; simpl; tauto ]|]).
  destruct Hin.
Qed.

Lemma listing_path_selection (method seg : string) (m : Match) (r : route) :
  In seg ["completed"; "pending"; "overdue"; "weekly-summary"; "daily-summary"] ->
  route_for routes None method ["task"; seg] = Some (m, r) ->
  In (route_endpoint r) [Endpoint.get_task; Endpoint.update_task; Endpoint.delete_task].
Proof.
  intros Hseg. simpl in Hseg.
  repeat (destruct Hseg as [<-|Hseg]);
    try contradiction;
    unfold routes; walk_routes; simpl;
    intros E; injection E as _ <-; simpl; tauto.
Qed.

(** X19: whatever the method and the path, the router never selects the
    endpoints of the completed, pending, overdue, weekly and daily
    listings: their paths, /task/completed and the like, are also
    matched by /task/{task_id}, which is registered before them. *)
Theorem listings_under_task_never_selected (method : string) (path : list string)
    (m : Match) :
  dispatch method path <> Some (m, Endpoint.view_completed_tasks) /\
  dispatch method path <> Some (m, Endpoint.view_pending_tasks) /\
  dispatch method path <> Some (m, Endpoint.view_overdue_tasks) /\
  dispatch method path <> Some (m, Endpoint.get_weekly_task_summary) /\
  dispatch method path <> Some (m, Endpoint.get_daily_task_summary).
Proof.
  assert (Hnever : forall e,
    In e [Endpoint.view_completed_tasks; Endpoint.view_pending_tasks;
          Endpoint.view_overdue_tasks; Endpoint.get_weekly_task_summary;
          Endpoint.get_daily_task_summary] ->
    dispatch method path <> Some (m, e)).
  { intros e He H. apply dispatch_selected in H.
    destruct H as (r & Hin & Hpm & E & Hep). rewrite <- Hep in He.
    destruct (listing_route_path r Hin He) as (seg & Hpath & Hseg).
    rewrite Hpath in Hpm. apply two_literals_match in Hpm. rewrite Hpm in E.
    apply (listing_path_selection method seg m r Hseg) in E.
    rewrite Hep in He, E. simpl in He, E.
    destruct He as [<-|[<-|[<-|[<-|[<-|[]]]]]];
      destruct E as [E|[E|[E|[]]]]; discriminate E. }
  repeat split; apply Hnever; simpl; tauto.
Qed.

(** The first route that matches in full is selected, whatever matched
    in part before it. *)



